(** * media_kit_libs_windows_video: the plugin registration entry point

    Embedding of
    [libs/windows/media_kit_libs_windows_video/windows/media_kit_libs_windows_video_plugin_c_api.cpp].

    The translation unit defines one function,

    <<
    void MediaKitLibsWindowsVideoPluginCApiRegisterWithRegistrar(
        FlutterDesktopPluginRegistrarRef registrar) {
      MediaKit::GetInstance().FindPackages();
      std::cout << "package:media_kit_libs_windows_video registered." << std::endl;
    }
    >>

    Its body is a straight line of calls into two components that live
    outside the file: the [MediaKit] package locator ([<media_kit.h>]) and
    the standard output stream ([<iostream>]).  The function is embedded as
    a program over those calls.  The package locator is an interface whose
    operations may return or throw.  The stream is [std::ostream] with its
    error state, exception mask, field width, fill character, adjustment,
    unit buffering, tie and buffer; [operator<<] and [std::endl] go through
    the sentry, pad, fail and throw as the stream's state makes them. *)

From Stdlib Require Import String Ascii List NArith Arith Bool Lia.
Import ListNotations.
Open Scope string_scope.

Set Implicit Arguments.

(** ** Results of a C++ call *)

(** A call either returns a value or leaves by an exception; in both cases
    it hands back the state it reached. *)
Inductive outcome (E S A : Type) : Type :=
| Returned (a : A) (s : S)
| Threw (e : E) (s : S).

Arguments Returned {E S A} a s.
Arguments Threw {E S A} e s.

Definition final_state {E S A} (o : outcome E S A) : S :=
  match o with
  | Returned _ s => s
  | Threw _ s => s
  end.

Definition returned_value {E S A} (o : outcome E S A) : option A :=
  match o with
  | Returned a _ => Some a
  | Threw _ _ => None
  end.

Definition thrown {E S A} (o : outcome E S A) : option E :=
  match o with
  | Returned _ _ => None
  | Threw e _ => Some e
  end.

Definition map_state {E S T A} (f : S -> T) (o : outcome E S A) : outcome E T A :=
  match o with
  | Returned a s => Returned a (f s)
  | Threw e s => Threw e (f s)
  end.

Definition map_thrown {E F S A} (f : E -> F) (o : outcome E S A) : outcome F S A :=
  match o with
  | Returned a s => Returned a s
  | Threw e s => Threw (f e) s
  end.

(** ** [std::ostream], as far as [operator<<] and [std::endl] use it *)

Module ostream.

(** [std::ios_base::iostate]: the three error bits.  [goodbit] is none of
    them. *)
Record iostate : Type := bits { badbit : bool; failbit : bool; eofbit : bool }.

Definition goodbit : iostate := bits false false false.
Definition only_badbit : iostate := bits true false false.
Definition only_failbit : iostate := bits false true false.

Definition union (a b : iostate) : iostate :=
  bits (badbit a || badbit b) (failbit a || failbit b) (eofbit a || eofbit b).

Definition meets (a b : iostate) : bool :=
  (badbit a && badbit b) || (failbit a && failbit b) || (eofbit a && eofbit b).

Definition is_goodbit (a : iostate) : bool :=
  negb (badbit a || failbit a || eofbit a).

(** [std::ios_base::failure], the one exception the stream itself throws. *)
Inductive failure : Type := ios_base_failure.

(** The three output functions line 11 goes through. *)
Inductive output_function : Type := inserter | put_function | flush_function.

(** What differs between implementations of the library, and the stream
    [std::cout] may be tied to.

    - A sentry that finds the stream not good "may call
      [setstate(failbit)]": [failed_sentry f st] is the argument of the
      [setstate] call the output function [f] makes on a stream in state
      [st], or [None] when it makes none.
    - [failed_insertion] are the bits the character inserter reports when
      the buffer refuses characters.
    - [width_reset_on_failure]: whether [width(0)] has happened by the time
      that report is made.
    - [unitbuf_sync_when_failed]: whether the sentry's destructor syncs a
      unit-buffered stream that is not good.
    - [tied] is the state of the stream [tie()] points to; flushing it may
      return or throw. *)
Class Library : Type := {
  failed_sentry : output_function -> iostate -> option iostate;
  failed_insertion : iostate;
  width_reset_on_failure : bool;
  unitbuf_sync_when_failed : bool;
  tied : Type;
  tied_flush : tied -> outcome failure tied unit
}.

(** [std::streambuf] seen from the stream: the characters the device has
    received, the characters still buffered, how many more characters the
    buffer takes ([None]: any number) and whether [pubsync()] succeeds. *)
Record streambuf : Type := mkbuf {
  flushed : string;
  pending : string;
  room : option nat;
  sync_ok : bool
}.

(** [sputn(s, n)] (and [sputc], for one character): the characters go into
    the buffer as long as it takes them; the result tells whether all of
    them did. *)
Definition sputn (s : string) (sb : streambuf) : streambuf * bool :=
  match room sb with
  | None =>
      ({| flushed := flushed sb; pending := pending sb ++ s;
          room := None; sync_ok := sync_ok sb |}, true)
  | Some r =>
      if Nat.leb (String.length s) r
      then ({| flushed := flushed sb; pending := pending sb ++ s;
               room := Some (r - String.length s); sync_ok := sync_ok sb |}, true)
      else ({| flushed := flushed sb; pending := pending sb ++ substring 0 r s;
               room := Some 0; sync_ok := sync_ok sb |}, false)
  end.

(** [pubsync()] *)
Definition pubsync (sb : streambuf) : streambuf * bool :=
  if sync_ok sb
  then ({| flushed := flushed sb ++ pending sb; pending := EmptyString;
           room := room sb; sync_ok := true |}, true)
  else (sb, false).

Section Stream.

Context {lib : Library}.

(** The stream object. *)
Record t : Type := mk {
  rdstate : iostate;
  exceptions : iostate;
  width : nat;
  fill : ascii;
  left : bool;
  unitbuf : bool;
  tie : option tied;
  rdbuf : streambuf
}.

Definition with_rdstate (st : iostate) (os : t) : t :=
  {| rdstate := st; exceptions := exceptions os; width := width os; fill := fill os;
     left := left os; unitbuf := unitbuf os; tie := tie os; rdbuf := rdbuf os |}.

Definition with_width (n : nat) (os : t) : t :=
  {| rdstate := rdstate os; exceptions := exceptions os; width := n; fill := fill os;
     left := left os; unitbuf := unitbuf os; tie := tie os; rdbuf := rdbuf os |}.

Definition with_tie (td : option tied) (os : t) : t :=
  {| rdstate := rdstate os; exceptions := exceptions os; width := width os;
     fill := fill os; left := left os; unitbuf := unitbuf os; tie := td;
     rdbuf := rdbuf os |}.

Definition with_rdbuf (sb : streambuf) (os : t) : t :=
  {| rdstate := rdstate os; exceptions := exceptions os; width := width os;
     fill := fill os; left := left os; unitbuf := unitbuf os; tie := tie os;
     rdbuf := sb |}.

(** [os.good()] *)
Definition good (os : t) : bool := is_goodbit (rdstate os).

(** [os.setstate(b)], that is [clear(rdstate() | b)]: the bits are added,
    and [failure] is thrown when the state then meets the mask. *)
Definition setstate (b : iostate) (os : t) : outcome failure t unit :=
  let os' := with_rdstate (union (rdstate os) b) os in
  if meets (rdstate os') (exceptions os')
  then Threw ios_base_failure os'
  else Returned tt os'.

(** Construction of the sentry: on a good stream the tied stream is
    flushed, and the sentry is true; on a stream that is not good the
    sentry is false, after the [setstate] call the library may make. *)
Definition sentry (f : output_function) (os : t) : outcome failure t bool :=
  if good os then
    match tie os with
    | None => Returned true os
    | Some td =>
        match tied_flush td with
        | Returned _ td' => Returned true (with_tie (Some td') os)
        | Threw e td' => Threw e (with_tie (Some td') os)
        end
    end
  else
    match failed_sentry f (rdstate os) with
    | None => Returned false os
    | Some b =>
        match setstate b os with
        | Returned _ os' => Returned false os'
        | Threw e os' => Threw e os'
        end
    end.

(** Destruction of the sentry when the function returns: a unit-buffered
    stream is synced; a failed sync sets [badbit] and throws nothing. *)
Definition sentry_exit (os : t) : t :=
  if unitbuf os && (good os || unitbuf_sync_when_failed) then
    let (sb, ok) := pubsync (rdbuf os) in
    if ok then with_rdbuf sb os
    else with_rdstate (union (rdstate os) only_badbit) (with_rdbuf sb os)
  else os.

(** An output function: sentry, the work when the sentry is true, end of
    the sentry.  An exception leaves at once. *)
Definition output (f : output_function) (work : t -> outcome failure t unit)
    (os : t) : outcome failure t unit :=
  match sentry f os with
  | Threw e os1 => Threw e os1
  | Returned ok os1 =>
      match (if ok then work os1 else Returned tt os1) with
      | Returned _ os2 => Returned tt (sentry_exit os2)
      | Threw e os2 => Threw e os2
      end
  end.

Fixpoint fill_characters (n : nat) (c : ascii) : string :=
  match n with
  | O => EmptyString
  | S n' => String c (fill_characters n' c)
  end.

(** The sequence a character inserter inserts for [s]: [s] itself, or,
    when [s] is shorter than [width()], [s] with fill characters after it
    (adjustment [left]) or before it (otherwise). *)
Definition padded (s : string) (os : t) : string :=
  if Nat.ltb (String.length s) (width os)
  then
    let pad := fill_characters (width os - String.length s) (fill os) in
    if left os then s ++ pad else pad ++ s
  else s.

(** [os << s] for a character string [s]. *)
Definition insert (s : string) : t -> outcome failure t unit :=
  output inserter
    (fun os =>
       let (sb, ok) := sputn (padded s os) (rdbuf os) in
       if ok then Returned tt (with_width 0 (with_rdbuf sb os))
       else
         setstate failed_insertion
           (if width_reset_on_failure
            then with_width 0 (with_rdbuf sb os)
            else with_rdbuf sb os)).

Definition newline : ascii := ascii_of_nat 10.

(** [os.put(c)] *)
Definition put (c : ascii) : t -> outcome failure t unit :=
  output put_function
    (fun os =>
       let (sb, ok) := sputn (String c EmptyString) (rdbuf os) in
       if ok then Returned tt (with_rdbuf sb os)
       else setstate only_badbit (with_rdbuf sb os)).

(** [os.flush()] *)
Definition flush : t -> outcome failure t unit :=
  output flush_function
    (fun os =>
       let (sb, ok) := pubsync (rdbuf os) in
       if ok then Returned tt (with_rdbuf sb os)
       else setstate only_badbit (with_rdbuf sb os)).

(** [os << std::endl]: [os.put('\n')] followed by [os.flush()]. *)
Definition endl (os : t) : outcome failure t unit :=
  match put newline os with
  | Returned _ os1 => flush os1
  | Threw e os1 => Threw e os1
  end.

(** Every character the buffer has taken so far, delivered or not. *)
Definition contents (os : t) : string :=
  flushed (rdbuf os) ++ pending (rdbuf os).

(** The stream can take [n] more characters on a line of its own making:
    it is good and tied to no stream, its buffer has room for them and its
    device accepts a sync. *)
Definition takes (n : nat) (os : t) : bool :=
  good os
  && match tie os with None => true | Some _ => false end
  && match room (rdbuf os) with None => true | Some r => Nat.leb n r end
  && sync_ok (rdbuf os).

(** The stream takes [s] and a line terminator as they are: it takes that
    many characters, and its field width asks for no padding of [s]. *)
Definition takes_line (s : string) (os : t) : bool :=
  takes (String.length s + 1) os && Nat.leb (width os) (String.length s).

(** The stream [os] after it has taken [s] and a line terminator and
    delivered all it held: nothing else of it differs but the field width,
    which is 0, and the room left. *)
Definition with_line (s : string) (os : t) : t :=
  {| rdstate := rdstate os; exceptions := exceptions os; width := 0;
     fill := fill os; left := left os; unitbuf := unitbuf os; tie := tie os;
     rdbuf :=
       {| flushed :=
            flushed (rdbuf os) ++ pending (rdbuf os) ++ s
              ++ String newline EmptyString;
          pending := EmptyString;
          room := option_map (fun r => r - (String.length s + 1)) (room (rdbuf os));
          sync_ok := sync_ok (rdbuf os) |} |}.

(** The stream throws nothing: its exception mask is empty and it is tied
    to no stream. *)
Definition quiet (os : t) : bool :=
  is_goodbit (exceptions os)
  && match tie os with None => true | Some _ => false end.

(** What is left of a stream [os] that was not good: [os'] holds the same
    characters and is not good either. *)
Definition untouched (os os' : t) : Prop :=
  contents os' = contents os /\ good os' = false.

End Stream.

End ostream.

(** [strip_prefix p s]: what follows [p] in [s], when [s] starts with [p]. *)
Fixpoint strip_prefix (p s : string) : option string :=
  match p, s with
  | EmptyString, _ => Some s
  | String c p', String d s' => if Ascii.eqb c d then strip_prefix p' s' else None
  | String _ _, EmptyString => None
  end.

(** The text a stream has gained between two of its states. *)
Definition gained {lib : ostream.Library} (before after : ostream.t) : option string :=
  strip_prefix (ostream.contents before) (ostream.contents after).

(** ** The package locator of [<media_kit.h>] *)

(** The header is not part of the translation unit.  The entry point uses
    two operations of it: the static [MediaKit::GetInstance()], whose result
    is the receiver of the member call [FindPackages()].  Their bodies are
    unknown here; they are taken as any two operations on the locator's own
    process-wide state, each of which may return or throw. *)
Class MediaKitApi : Type := {
  (** what the locator throws *)
  exn : Type;
  (** process-wide state of the locator (the singleton and what it found) *)
  MediaKit : Type;
  (** what [GetInstance()] evaluates to *)
  instance_ref : Type;
  (** what [FindPackages()] evaluates to; the call site discards it *)
  find_result : Type;
  GetInstance : MediaKit -> outcome exn MediaKit instance_ref;
  FindPackages : instance_ref -> MediaKit -> outcome exn MediaKit find_result
}.

(** [FlutterDesktopPluginRegistrarRef] is a pointer to the embedder's opaque
    [FlutterDesktopPluginRegistrar]. *)
Definition FlutterDesktopPluginRegistrarRef : Type := N.

(** The literal of line 11. *)
Definition confirmation : string :=
  "package:media_kit_libs_windows_video registered.".

(** The confirmation string as a complete line. *)
Definition confirmation_line : string :=
  confirmation ++ String ostream.newline EmptyString.

Section Plugin.

Context {api : MediaKitApi} {lib : ostream.Library}.

(** The pointee of a registrar handle; the struct is opaque to plugins. *)
Variable FlutterDesktopPluginRegistrar : Type.

(** *** Process state *)

Record world : Type := mkWorld {
  mediakit : MediaKit;
  cout : ostream.t;
  registrars : FlutterDesktopPluginRegistrarRef -> option FlutterDesktopPluginRegistrar
}.

Definition with_mediakit (m : MediaKit) (w : world) : world :=
  {| mediakit := m; cout := cout w; registrars := registrars w |}.

Definition with_cout (os : ostream.t) (w : world) : world :=
  {| mediakit := mediakit w; cout := os; registrars := registrars w |}.

Definition with_registrars
    (h : FlutterDesktopPluginRegistrarRef -> option FlutterDesktopPluginRegistrar)
    (w : world) : world :=
  {| mediakit := mediakit w; cout := cout w; registrars := h |}.

(** What can leave the entry point: an exception of the locator, or the
    stream's [std::ios_base::failure]. *)
Inductive exception : Type :=
| from_locator (e : exn)
| from_stream (f : ostream.failure).

(** *** Calls the translation unit makes *)

Inductive call : Type -> Type :=
| MediaKit_GetInstance : call instance_ref
| MediaKit_FindPackages (self : instance_ref) : call find_result
| cout_insert (s : string) : call unit
| cout_endl : call unit.

(** What a call does to the process. *)
Definition perform {X} (c : call X) (w : world) : outcome exception world X :=
  match c in call X return outcome exception world X with
  | MediaKit_GetInstance =>
      map_thrown from_locator
        (map_state (fun m => with_mediakit m w) (GetInstance (mediakit w)))
  | MediaKit_FindPackages self =>
      map_thrown from_locator
        (map_state (fun m => with_mediakit m w) (FindPackages self (mediakit w)))
  | cout_insert s =>
      map_thrown from_stream
        (map_state (fun os => with_cout os w) (ostream.insert s (cout w)))
  | cout_endl =>
      map_thrown from_stream
        (map_state (fun os => with_cout os w) (ostream.endl (cout w)))
  end.

(** The operation a call invokes, as an observer of this layer sees it. *)
Inductive event : Type :=
| EGetInstance
| EFindPackages
| ECoutInsert (s : string)
| ECoutEndl.

Definition event_of {X} (c : call X) : event :=
  match c with
  | MediaKit_GetInstance => EGetInstance
  | MediaKit_FindPackages _ => EFindPackages
  | cout_insert s => ECoutInsert s
  | cout_endl => ECoutEndl
  end.

(** *** Function bodies *)

(** A body is a value to return, or a call followed by the rest of the
    body, which may use the call's result.  There is no construct that
    catches an exception: the translation unit has none. *)
Inductive prog (A : Type) : Type :=
| Ret (a : A)
| Do (X : Type) (c : call X) (k : X -> prog A).

Arguments Ret {A} a.
Arguments Do {A X} c k.

Fixpoint bind {A B} (p : prog A) (f : A -> prog B) : prog B :=
  match p with
  | Ret a => f a
  | Do c k => Do c (fun x => bind (k x) f)
  end.

Definition invoke {X} (c : call X) : prog X := Do c Ret.

(** Running a body: calls are performed in sequence and logged; the first
    exception ends the run and leaves through the caller. *)
Fixpoint run {A} (p : prog A) (w : world) : outcome exception world A * list event :=
  match p with
  | Ret a => (Returned a w, [])
  | Do c k =>
      match perform c w with
      | Returned x w' =>
          let (o, t) := run (k x) w' in (o, event_of c :: t)
      | Threw e w' => (Threw e w', [event_of c])
      end
  end.

Definition result {A} (p : prog A) (w : world) : outcome exception world A :=
  fst (run p w).
Definition trace {A} (p : prog A) (w : world) : list event := snd (run p w).

(** The calls of a run, each with the process state it was made in. *)
Fixpoint history {A} (p : prog A) (w : world) : list (event * world) :=
  match p with
  | Ret _ => []
  | Do c k =>
      (event_of c, w) ::
      match perform c w with
      | Returned x w' => history (k x) w'
      | Threw _ _ => []
      end
  end.

(** *** The entry point (lines 9--12) *)

Notation "x <- p ;; q" := (bind p (fun x => q))
  (at level 61, p at next level, right associativity).
Notation "p ;; q" := (bind p (fun _ => q))
  (at level 61, right associativity).

Definition MediaKitLibsWindowsVideoPluginCApiRegisterWithRegistrar
    (registrar : FlutterDesktopPluginRegistrarRef) : prog unit :=
  self <- invoke MediaKit_GetInstance ;;
  invoke (MediaKit_FindPackages self) ;;
  invoke (cout_insert confirmation) ;;
  invoke cout_endl.

(** The name the embedder's generated registrant uses is long; [register]
    abbreviates it below. *)
Definition register := MediaKitLibsWindowsVideoPluginCApiRegisterWithRegistrar.

(** One call per handle of [rs], each started when the previous one has
    returned.  The body has no static flag and no early return, so each
    call runs it whole. *)
Fixpoint registrations (rs : list FlutterDesktopPluginRegistrarRef) : prog unit :=
  match rs with
  | [] => Ret tt
  | registrar :: rs' => bind (register registrar) (fun _ => registrations rs')
  end.

(** *** Observations on a log of calls *)

Definition is_FindPackages (ev : event) : bool :=
  match ev with EFindPackages => true | _ => false end.

Definition is_cout (ev : event) : bool :=
  match ev with ECoutInsert _ | ECoutEndl => true | _ => false end.

Definition invocations (f : event -> bool) (t : list event) : nat :=
  length (filter f t).

(** The characters the logged calls ask [std::cout] to take. *)
Fixpoint written (t : list event) : string :=
  match t with
  | [] => EmptyString
  | ECoutInsert s :: t' => s ++ written t'
  | ECoutEndl :: t' => String ostream.newline (written t')
  | _ :: t' => written t'
  end.

(** The calls of a registration in which nothing throws. *)
Definition full_trace : list event :=
  [EGetInstance; EFindPackages; ECoutInsert confirmation; ECoutEndl].

(** *** The two lines of the body, each on its own *)

(** Line 10: the locator state reached by [GetInstance()] followed by
    [FindPackages()] on its result, the second skipped when the first
    throws. *)
Definition discovery (m : MediaKit) : outcome exn MediaKit unit :=
  match GetInstance m with
  | Returned self m1 =>
      match FindPackages self m1 with
      | Returned _ m2 => Returned tt m2
      | Threw e m2 => Threw e m2
      end
  | Threw e m1 => Threw e m1
  end.

(** Normal operation: neither call into the locator throws. *)
Definition normal_operation (w : world) : bool :=
  match discovery (mediakit w) with
  | Returned _ _ => true
  | Threw _ _ => false
  end.

End Plugin.

Arguments Ret {api A} a.
Arguments Do {api A X} c k.
Arguments MediaKit_GetInstance {api}.
Arguments cout_insert {api} s.
Arguments cout_endl {api}.
Arguments mkWorld {api lib FlutterDesktopPluginRegistrar} _ _ _.
Arguments from_stream {api} f.

(** ** Text as lines *)

(** [split_lines acc s]: the lines of [acc ++ s] that a line terminator
    completes, and the unterminated remainder. *)
Fixpoint split_lines (acc s : string) : list string * string :=
  match s with
  | EmptyString => ([], acc)
  | String c s' =>
      if Ascii.eqb c ostream.newline
      then let (ls, rest) := split_lines EmptyString s' in (acc :: ls, rest)
      else split_lines (acc ++ String c EmptyString) s'
  end.

Definition complete_lines (s : string) : list string := fst (split_lines EmptyString s).
Definition partial_line (s : string) : string := snd (split_lines EmptyString s).

(** The complete lines a stream has gained between two of its states, when
    it has gained complete lines only. *)
Definition lines_gained {lib : ostream.Library} (before after : ostream.t)
    : option (list string) :=
  match gained before after with
  | Some text =>
      if String.eqb (partial_line text) EmptyString
      then Some (complete_lines text)
      else None
  | None => None
  end.

(** [n] copies of the confirmation line. *)
Fixpoint confirmation_lines (n : nat) : string :=
  match n with
  | O => EmptyString
  | S n' => confirmation_line ++ confirmation_lines n'
  end.

(** ** The value of [FindPackages()] *)

(** Line 10 is an expression statement: what [FindPackages()] evaluates to
    is dropped.  [forget_result api] is the locator [api] with that value
    erased; [as_forgetful] views a process over [api] as one over it. *)
Definition forget_result (api : MediaKitApi) : MediaKitApi := {|
  exn := @exn api;
  MediaKit := @MediaKit api;
  instance_ref := @instance_ref api;
  find_result := unit;
  GetInstance := @GetInstance api;
  FindPackages := fun self m =>
    match @FindPackages api self m with
    | Returned _ m' => Returned tt m'
    | Threw e m' => Threw e m'
    end
|}.

Definition as_forgetful {api : MediaKitApi} {lib : ostream.Library} {R : Type}
    (w : world (api := api) R) : world (api := forget_result api) R :=
  mkWorld (api := forget_result api) (mediakit w) (cout w) (registrars w).

Definition forgetful_exception {api : MediaKitApi} (x : exception (api := api))
    : exception (api := forget_result api) :=
  match x with
  | from_locator e => from_locator (api := forget_result api) e
  | from_stream f => from_stream f
  end.

(** ** A stream library and some states of [std::cout] to evaluate on *)

Module Console.

(** A library in which a false sentry is reported by [setstate(failbit)],
    a refused insertion by [badbit] once the width is reset, a
    unit-buffered stream is synced only while good, and the stream
    [std::cout] could be tied to has nothing to flush. *)
#[export] Instance library : ostream.Library := {|
  ostream.failed_sentry := fun _ _ => Some ostream.only_failbit;
  ostream.failed_insertion := ostream.only_badbit;
  ostream.width_reset_on_failure := true;
  ostream.unitbuf_sync_when_failed := false;
  ostream.tied := unit;
  ostream.tied_flush := fun td => Returned tt td
|}.

(** [std::cout] with [flushed] delivered and [pending] buffered, otherwise
    as the library sets it up: good, nothing in the exception mask, width
    0, filled with spaces, not unit-buffered, tied to no stream. *)
Definition holding (flushed pending : string) : ostream.t :=
  {| ostream.rdstate := ostream.goodbit;
     ostream.exceptions := ostream.goodbit;
     ostream.width := 0;
     ostream.fill := " "%char;
     ostream.left := false;
     ostream.unitbuf := false;
     ostream.tie := None;
     ostream.rdbuf :=
       {| ostream.flushed := flushed; ostream.pending := pending;
          ostream.room := None; ostream.sync_ok := true |} |}.

Definition initial : ostream.t := holding EmptyString EmptyString.

(** After [std::cout.width(60)] and [std::cout.fill('*')]. *)
Definition starred : ostream.t :=
  {| ostream.rdstate := ostream.goodbit;
     ostream.exceptions := ostream.goodbit;
     ostream.width := 60;
     ostream.fill := "*"%char;
     ostream.left := false;
     ostream.unitbuf := false;
     ostream.tie := None;
     ostream.rdbuf := ostream.rdbuf initial |}.

(** After [std::cout.width(10)]. *)
Definition narrow : ostream.t := ostream.with_width 10 initial.

(** After [std::cout.setstate(std::ios_base::failbit)]. *)
Definition failed : ostream.t := ostream.with_rdstate ostream.only_failbit initial.

(** After [std::cout.exceptions(std::ios_base::badbit)], on a buffer that
    takes no character. *)
Definition strict_full : ostream.t :=
  {| ostream.rdstate := ostream.goodbit;
     ostream.exceptions := ostream.only_badbit;
     ostream.width := 0;
     ostream.fill := " "%char;
     ostream.left := false;
     ostream.unitbuf := false;
     ostream.tie := None;
     ostream.rdbuf :=
       {| ostream.flushed := EmptyString; ostream.pending := EmptyString;
          ostream.room := Some 0; ostream.sync_ok := true |} |}.

End Console.

(** ** A small package locator to run the entry point against *)

Module Stub.

(** An instance of the interface to evaluate the entry point on; it stands
    for no particular locator.  It keeps whether its singleton has been
    constructed, the directories it still has to scan and the libraries it
    has loaded.  [FindPackages] loads one library per directory and reports
    how many; with nothing to scan it throws. *)
Record state : Type := mk {
  constructed : bool;
  search_path : list string;
  loaded : list string
}.

Definition get_instance (s : state) : outcome string state unit :=
  Returned tt {| constructed := true;
                 search_path := search_path s;
                 loaded := loaded s |}.

Definition find_packages (self : unit) (s : state) : outcome string state nat :=
  match search_path s with
  | [] => Threw "no package directory" s
  | dirs =>
      Returned (length dirs)
               {| constructed := constructed s;
                  search_path := [];
                  loaded := loaded s ++ map (fun d => d ++ "/libmpv-2.dll") dirs |}
  end.

#[export] Instance api : MediaKitApi := {|
  exn := string;
  MediaKit := state;
  instance_ref := unit;
  find_result := nat;
  GetInstance := get_instance;
  FindPackages := find_packages
|}.

(** The embedder's registrar objects, reduced to a name. *)
Definition host (r : FlutterDesktopPluginRegistrarRef) : option string :=
  if N.eqb r 4096 then Some "flutter_windows" else None.

Definition process (os : ostream.t (lib := Console.library)) (dirs : list string)
    : world (api := api) (lib := Console.library) string :=
  mkWorld {| constructed := false; search_path := dirs; loaded := [] |} os host.

Definition fresh (dirs : list string) : world string :=
  process (Console.holding "flutter: " "boot") dirs.

(** A process with one directory to scan, and one with none. *)
Definition ready : world string := fresh ["C:/app/data"].
Definition empty : world string := fresh [].

(** Processes with one directory to scan and [std::cout] in other states. *)
Definition starred : world string := process Console.starred ["C:/app/data"].
Definition narrow : world string := process Console.narrow ["C:/app/data"].
Definition failed : world string := process Console.failed ["C:/app/data"].
Definition strict_full : world string := process Console.strict_full ["C:/app/data"].

End Stub.

(** ** A second locator, which can fail to come up *)

Module Probe.

(** [GetInstance] throws while the locator is not available; once it is,
    [FindPackages] counts its scans and reports the count. *)
Record state : Type := mk { available : bool; scans : nat }.

Definition get_instance (s : state) : outcome string state unit :=
  if available s then Returned tt s else Threw "locator unavailable" s.

Definition find_packages (self : unit) (s : state) : outcome string state nat :=
  Returned (S (scans s)) {| available := available s; scans := S (scans s) |}.

#[export] Instance api : MediaKitApi := {|
  exn := string;
  MediaKit := state;
  instance_ref := unit;
  find_result := nat;
  GetInstance := get_instance;
  FindPackages := find_packages
|}.

Definition process (os : ostream.t (lib := Console.library)) (up : bool)
    : world (api := api) (lib := Console.library) unit :=
  mkWorld {| available := up; scans := 0 |} os (fun _ => None).

Definition up : world unit := process Console.initial true.
Definition down : world unit := process Console.initial false.

End Probe.

(** ** Strings *)

Lemma append_assoc (a b c : string) : (a ++ b) ++ c = a ++ (b ++ c).
Proof.
induction a as [ | ch a IH ]; cbn [append]; [ reflexivity | now rewrite IH ].
Qed.

Lemma append_nil_r (a : string) : a ++ EmptyString = a.
Proof.
induction a as [ | ch a IH ]; cbn [append]; [ reflexivity | now rewrite IH ].
Qed.

Lemma strip_prefix_append (p s : string) : strip_prefix p (p ++ s) = Some s.
Proof.
induction p as [ | ch p IH ]; cbn [append strip_prefix]; [ reflexivity | ].
now rewrite Ascii.eqb_refl.
Qed.

Lemma length_append (a b : string) :
  String.length (a ++ b) = String.length a + String.length b.
Proof.
induction a as [ | ch a IH ]; cbn [append String.length]; [ reflexivity | now rewrite IH ].
Qed.

Lemma strip_prefix_same (p : string) : strip_prefix p p = Some EmptyString.
Proof.
rewrite <- (append_nil_r p) at 2. apply strip_prefix_append.
Qed.

(** ** The stream *)

Section StreamFacts.

Context {lib : ostream.Library}.

Lemma is_goodbit_inv st : ostream.is_goodbit st = true -> st = ostream.goodbit.
Proof. destruct st as [[|] [|] [|]]; cbn; intros H; try discriminate H; reflexivity. Qed.

Lemma takes_line_inv s os :
  ostream.takes_line s os = true ->
  ostream.rdstate os = ostream.goodbit /\
  ostream.tie os = None /\
  ostream.sync_ok (ostream.rdbuf os) = true /\
  ostream.width os <= String.length s /\
  (forall r, ostream.room (ostream.rdbuf os) = Some r -> String.length s + 1 <= r).
Proof.
unfold ostream.takes_line, ostream.takes, ostream.good.
intros H. apply andb_true_iff in H as [H Hw].
apply andb_true_iff in H as [H Hs]. apply andb_true_iff in H as [H Hr].
apply andb_true_iff in H as [Hg Ht].
split; [ now apply is_goodbit_inv | ].
split; [ destruct (ostream.tie os); [ discriminate Ht | reflexivity ] | ].
split; [ exact Hs | ].
split; [ now apply Nat.leb_le | ].
intros r Hroom. rewrite Hroom in Hr. now apply Nat.leb_le.
Qed.

Lemma line_taken s os :
  ostream.takes_line s os = true ->
  match ostream.insert s os with
  | Returned _ os1 => ostream.endl os1
  | Threw e os1 => Threw e os1
  end = Returned tt (ostream.with_line s os).
Proof.
intros H. destruct (takes_line_inv s os H) as (Hst & Htie & Hsync & Hw & Hroom).
clear H.
destruct os as [st ex wd fl lf ub td [f p r sy]].
cbn [ostream.rdstate ostream.tie ostream.sync_ok ostream.rdbuf ostream.width ostream.room] in *.
subst st td sy.
assert (Hpad : Nat.ltb (String.length s) wd = false) by (apply Nat.ltb_ge; exact Hw).
unfold ostream.insert, ostream.endl, ostream.put, ostream.flush, ostream.output,
  ostream.sentry, ostream.sentry_exit, ostream.padded, ostream.good, ostream.with_line,
  ostream.sputn, ostream.pubsync.
cbn [ostream.rdstate ostream.tie ostream.width ostream.is_goodbit ostream.goodbit
     ostream.badbit ostream.failbit ostream.eofbit orb negb ostream.rdbuf ostream.room
     ostream.sync_ok ostream.flushed ostream.pending].
rewrite Hpad.
destruct r as [r | ].
- specialize (Hroom r eq_refl).
  assert (H1 : Nat.leb (String.length s) r = true) by (apply Nat.leb_le; lia).
  rewrite H1.
  destruct (r - String.length s) as [ | d ] eqn:Hd; [ lia | ].
  assert (Hleft : d - 0 = r - (String.length s + 1)) by lia.
  destruct ub; cbn; rewrite ?append_nil_r, ?append_assoc, Hleft; reflexivity.
- destruct ub; cbn.
  all: rewrite ?append_nil_r, ?append_assoc; reflexivity.
Qed.
Lemma contents_with_line s os :
  ostream.contents (ostream.with_line s os) =
  ostream.contents os ++ s ++ String ostream.newline EmptyString.
Proof.
unfold ostream.contents, ostream.with_line. cbn [ostream.rdbuf ostream.flushed ostream.pending].
now rewrite append_nil_r, append_assoc.
Qed.

Lemma gained_with_line s os :
  gained os (ostream.with_line s os) = Some (s ++ String ostream.newline EmptyString).
Proof. unfold gained. rewrite contents_with_line. apply strip_prefix_append. Qed.

Lemma takes_more n k os : ostream.takes (n + k) os = true -> ostream.takes n os = true.
Proof.
unfold ostream.takes. intros H.
apply andb_true_iff in H as [H Hs]. apply andb_true_iff in H as [H Hr].
rewrite H, Hs. destruct (ostream.room (ostream.rdbuf os)) as [r | ]; [ | reflexivity ].
apply Nat.leb_le in Hr. cbn. rewrite andb_true_r. apply Nat.leb_le. lia.
Qed.

Lemma takes_with_line s n os :
  ostream.takes (String.length s + 1 + n) os = true ->
  ostream.takes n (ostream.with_line s os) = true.
Proof.
unfold ostream.takes, ostream.good, ostream.with_line.
cbn [ostream.rdstate ostream.tie ostream.rdbuf ostream.room ostream.sync_ok].
intros H. apply andb_true_iff in H as [H Hs]. apply andb_true_iff in H as [H Hr].
rewrite H, Hs. destruct (ostream.room (ostream.rdbuf os)) as [r | ]; [ | reflexivity ].
apply Nat.leb_le in Hr. cbn. rewrite andb_true_r. apply Nat.leb_le. lia.
Qed.

(** A quiet stream stays quiet and throws nothing. *)

Lemma quiet_inv os :
  ostream.quiet os = true ->
  ostream.exceptions os = ostream.goodbit /\ ostream.tie os = None.
Proof.
unfold ostream.quiet. intros H. apply andb_true_iff in H as [He Ht].
split; [ now apply is_goodbit_inv | ].
destruct (ostream.tie os); [ discriminate Ht | reflexivity ].
Qed.

Lemma meets_goodbit st : ostream.meets st ostream.goodbit = false.
Proof. destruct st as [[|] [|] [|]]; reflexivity. Qed.

Lemma setstate_quiet b os :
  ostream.quiet os = true ->
  exists os', ostream.setstate b os = Returned tt os' /\ ostream.quiet os' = true.
Proof.
intros Hq. destruct (quiet_inv os Hq) as [He Ht].
unfold ostream.setstate. cbv zeta.
unfold ostream.with_rdstate at 2. cbn [ostream.exceptions].
rewrite He, meets_goodbit. eexists. split; [ reflexivity | exact Hq ].
Qed.

Lemma output_quiet f work os :
  (forall o, ostream.quiet o = true ->
             exists o', work o = Returned tt o' /\ ostream.quiet o' = true) ->
  ostream.quiet os = true ->
  exists os', ostream.output f work os = Returned tt os' /\ ostream.quiet os' = true.
Proof.
intros Hwork Hq. destruct (quiet_inv os Hq) as [He Ht].
assert (Hexit : forall o, ostream.quiet o = true -> ostream.quiet (ostream.sentry_exit o) = true).
{ intros o Ho. unfold ostream.sentry_exit.
  destruct (ostream.unitbuf o && (ostream.good o || ostream.unitbuf_sync_when_failed));
    [ | exact Ho ].
  destruct (ostream.pubsync (ostream.rdbuf o)) as [sb [ | ]]; exact Ho. }
unfold ostream.output, ostream.sentry. rewrite Ht.
destruct (ostream.good os).
- destruct (Hwork os Hq) as (o' & Hw & Hq'). rewrite Hw.
  eexists. split; [ reflexivity | now apply Hexit ].
- destruct (ostream.failed_sentry f (ostream.rdstate os)) as [b | ].
  + destruct (setstate_quiet b os Hq) as (o' & Hs & Hq'). rewrite Hs.
    eexists. split; [ reflexivity | now apply Hexit ].
  + eexists. split; [ reflexivity | now apply Hexit ].
Qed.

Lemma insert_quiet s os :
  ostream.quiet os = true ->
  exists os', ostream.insert s os = Returned tt os' /\ ostream.quiet os' = true.
Proof.
apply output_quiet. intros o Ho.
destruct (ostream.sputn (ostream.padded s o) (ostream.rdbuf o)) as [sb [ | ]].
- eexists. split; [ reflexivity | exact Ho ].
- apply setstate_quiet. destruct ostream.width_reset_on_failure; exact Ho.
Qed.

Lemma endl_quiet os :
  ostream.quiet os = true ->
  exists os', ostream.endl os = Returned tt os' /\ ostream.quiet os' = true.
Proof.
intros Hq. unfold ostream.endl.
assert (Hput : exists o1, ostream.put ostream.newline os = Returned tt o1 /\ ostream.quiet o1 = true).
{ apply output_quiet; [ | exact Hq ]. intros o Ho.
  destruct (ostream.sputn (String ostream.newline EmptyString) (ostream.rdbuf o)) as [sb [ | ]].
  - eexists. split; [ reflexivity | exact Ho ].
  - apply setstate_quiet. exact Ho. }
destruct Hput as (o1 & Hp & Hq1). rewrite Hp.
apply output_quiet; [ | exact Hq1 ]. intros o Ho.
destruct (ostream.pubsync (ostream.rdbuf o)) as [sb [ | ]].
- eexists. split; [ reflexivity | exact Ho ].
- apply setstate_quiet. exact Ho.
Qed.

Lemma takes_inv n os :
  ostream.takes n os = true ->
  ostream.rdstate os = ostream.goodbit /\
  ostream.tie os = None /\
  ostream.sync_ok (ostream.rdbuf os) = true /\
  (forall r, ostream.room (ostream.rdbuf os) = Some r -> n <= r).
Proof.
unfold ostream.takes, ostream.good. intros H.
apply andb_true_iff in H as [H Hs]. apply andb_true_iff in H as [H Hr].
apply andb_true_iff in H as [Hg Ht].
split; [ now apply is_goodbit_inv | ].
split; [ destruct (ostream.tie os); [ discriminate Ht | reflexivity ] | ].
split; [ exact Hs | ].
intros r Hroom. rewrite Hroom in Hr. now apply Nat.leb_le.
Qed.

Lemma padded_line_taken s os :
  ostream.takes (String.length (ostream.padded s os) + 1) os = true ->
  match ostream.insert s os with
  | Returned _ os1 => ostream.endl os1
  | Threw e os1 => Threw e os1
  end = Returned tt (ostream.with_line (ostream.padded s os) os).
Proof.
intros H. destruct (takes_inv _ os H) as (Hst & Htie & Hsync & Hroom). clear H.
remember (ostream.padded s os) as seq eqn:Hseq.
destruct os as [st ex wd fl lf ub td [f p r sy]].
cbn [ostream.rdstate ostream.tie ostream.sync_ok ostream.rdbuf ostream.room] in *.
subst st td sy.
unfold ostream.insert, ostream.endl, ostream.put, ostream.flush, ostream.output,
  ostream.sentry, ostream.sentry_exit, ostream.good, ostream.with_line,
  ostream.sputn, ostream.pubsync.
cbn [ostream.rdstate ostream.tie ostream.width ostream.is_goodbit ostream.goodbit
     ostream.badbit ostream.failbit ostream.eofbit orb negb ostream.rdbuf ostream.room
     ostream.sync_ok ostream.flushed ostream.pending].
rewrite <- Hseq.
destruct r as [r | ].
- specialize (Hroom r eq_refl).
  assert (H1 : Nat.leb (String.length seq) r = true) by (apply Nat.leb_le; lia).
  rewrite H1.
  destruct (r - String.length seq) as [ | d ] eqn:Hd; [ lia | ].
  assert (Hleft : d - 0 = r - (String.length seq + 1)) by lia.
  destruct ub; cbn; rewrite ?append_nil_r, ?append_assoc, Hleft; reflexivity.
- destruct ub; cbn; rewrite ?append_nil_r, ?append_assoc; reflexivity.
Qed.

Lemma not_good_union a b :
  ostream.is_goodbit a = false -> ostream.is_goodbit (ostream.union a b) = false.
Proof.
destruct a as [[|] [|] [|]], b as [[|] [|] [|]]; cbn; intros H;
  try reflexivity; discriminate H.
Qed.

Lemma sentry_exit_not_good os os' :
  ostream.untouched os os' -> ostream.untouched os (ostream.sentry_exit os').
Proof.
intros [Hc Hg]. unfold ostream.sentry_exit.
destruct (ostream.unitbuf os' && (ostream.good os' || ostream.unitbuf_sync_when_failed));
  [ | now split ].
unfold ostream.pubsync. destruct (ostream.sync_ok (ostream.rdbuf os')).
- split; [ | exact Hg ].
  rewrite <- Hc. unfold ostream.contents.
  cbn [ostream.with_rdbuf ostream.rdbuf ostream.flushed ostream.pending].
  now rewrite append_nil_r.
- split.
  + rewrite <- Hc. destruct os' as [st ex wd fl lf ub td sb]. reflexivity.
  + unfold ostream.good.
    cbn [ostream.with_rdstate ostream.with_rdbuf ostream.rdstate].
    apply not_good_union. exact Hg.
Qed.

Lemma output_not_good f work os :
  ostream.good os = false ->
  ostream.untouched os (final_state (ostream.output f work os)).
Proof.
intros Hg. unfold ostream.output, ostream.sentry. rewrite Hg.
destruct (ostream.failed_sentry f (ostream.rdstate os)) as [b | ].
- unfold ostream.setstate. cbv zeta.
  assert (Hu : ostream.untouched os (ostream.with_rdstate (ostream.union (ostream.rdstate os) b) os)).
  { split; [ reflexivity | ]. unfold ostream.good.
    cbn [ostream.with_rdstate ostream.rdstate]. now apply not_good_union. }
  destruct (ostream.meets _ _); cbn [final_state]; [ exact Hu | ].
  now apply sentry_exit_not_good.
- cbn [final_state]. apply sentry_exit_not_good. now split.
Qed.

Lemma line_not_good s os :
  ostream.good os = false ->
  ostream.untouched os
    (final_state
       match ostream.insert s os with
       | Returned _ os1 => ostream.endl os1
       | Threw e os1 => Threw e os1
       end).
Proof.
intros Hg.
pose proof (output_not_good ostream.inserter
              (fun os =>
                 let (sb, ok) := ostream.sputn (ostream.padded s os) (ostream.rdbuf os) in
                 if ok then Returned tt (ostream.with_width 0 (ostream.with_rdbuf sb os))
                 else
                   ostream.setstate ostream.failed_insertion
                     (if ostream.width_reset_on_failure
                      then ostream.with_width 0 (ostream.with_rdbuf sb os)
                      else ostream.with_rdbuf sb os)) os Hg) as H1.
fold (ostream.insert s) in H1.
destruct (ostream.insert s os) as [[] os1 | e os1]; cbn [final_state] in H1;
  [ | exact H1 ].
destruct H1 as [Hc1 Hg1]. unfold ostream.endl.
pose proof (output_not_good ostream.put_function
              (fun os =>
                 let (sb, ok) :=
                   ostream.sputn (String ostream.newline EmptyString) (ostream.rdbuf os) in
                 if ok then Returned tt (ostream.with_rdbuf sb os)
                 else ostream.setstate ostream.only_badbit (ostream.with_rdbuf sb os))
              os1 Hg1) as H2.
fold (ostream.put ostream.newline) in H2.
destruct (ostream.put ostream.newline os1) as [[] os2 | e os2]; cbn [final_state] in H2.
- destruct H2 as [Hc2 Hg2].
  pose proof (output_not_good ostream.flush_function
                (fun os =>
                   let (sb, ok) := ostream.pubsync (ostream.rdbuf os) in
                   if ok then Returned tt (ostream.with_rdbuf sb os)
                   else ostream.setstate ostream.only_badbit (ostream.with_rdbuf sb os))
                os2 Hg2) as [Hc3 Hg3].
  fold ostream.flush in Hc3, Hg3.
  split; [ now rewrite Hc3, Hc2, Hc1 | exact Hg3 ].
- destruct H2 as [Hc2 Hg2]. cbn [final_state].
  split; [ now rewrite Hc2, Hc1 | exact Hg2 ].
Qed.

Lemma length_fill_characters n c : String.length (ostream.fill_characters n c) = n.
Proof. induction n as [ | n IH ]; cbn; [ reflexivity | now rewrite IH ]. Qed.

Lemma length_padded s os :
  String.length s < ostream.width os ->
  String.length (ostream.padded s os) = ostream.width os.
Proof.
intros Hlt. unfold ostream.padded.
apply Nat.ltb_lt in Hlt as Hb. rewrite Hb.
destruct (ostream.left os); rewrite length_append, length_fill_characters; lia.
Qed.

End StreamFacts.

(** ** Properties of the entry point *)

Section PluginFacts.

Context {api : MediaKitApi} {lib : ostream.Library}.
Variable FlutterDesktopPluginRegistrar : Type.

Implicit Types (registrar : FlutterDesktopPluginRegistrarRef).
Implicit Types (w : world FlutterDesktopPluginRegistrar).

(** *** One run, case by case *)

Lemma run_register registrar w :
  run (register registrar) w =
  match GetInstance (mediakit w) with
  | Threw e m1 => (Threw (from_locator e) (with_mediakit m1 w), [EGetInstance])
  | Returned self m1 =>
      match FindPackages self m1 with
      | Threw e m2 =>
          (Threw (from_locator e) (with_mediakit m2 w), [EGetInstance; EFindPackages])
      | Returned _ m2 =>
          match ostream.insert confirmation (cout w) with
          | Threw f os1 =>
              (Threw (from_stream f) (mkWorld m2 os1 (registrars w)),
               [EGetInstance; EFindPackages; ECoutInsert confirmation])
          | Returned _ os1 =>
              match ostream.endl os1 with
              | Threw f os2 =>
                  (Threw (from_stream f) (mkWorld m2 os2 (registrars w)), full_trace)
              | Returned _ os2 =>
                  (Returned tt (mkWorld m2 os2 (registrars w)), full_trace)
              end
          end
      end
  end.
Proof.
unfold register, MediaKitLibsWindowsVideoPluginCApiRegisterWithRegistrar, invoke.
cbn [bind run perform event_of].
destruct (GetInstance (mediakit w)) as [self m1 | e m1];
  cbn [map_state map_thrown]; [ | reflexivity ].
cbn [with_mediakit mediakit cout registrars].
destruct (FindPackages self m1) as [found m2 | e m2];
  cbn [map_state map_thrown]; [ | reflexivity ].
cbn [with_mediakit with_cout mediakit cout registrars].
destruct (ostream.insert confirmation (cout w)) as [[] os1 | f os1];
  cbn [map_state map_thrown]; [ | reflexivity ].
cbn [with_mediakit with_cout mediakit cout registrars].
destruct (ostream.endl os1) as [[] os2 | f os2];
  cbn [map_state map_thrown]; reflexivity.
Qed.

Lemma history_register registrar w :
  history (register registrar) w =
  (EGetInstance, w) ::
  match GetInstance (mediakit w) with
  | Threw _ _ => []
  | Returned self m1 =>
      (EFindPackages, with_mediakit m1 w) ::
      match FindPackages self m1 with
      | Threw _ _ => []
      | Returned _ m2 =>
          (ECoutInsert confirmation, with_mediakit m2 w) ::
          match ostream.insert confirmation (cout w) with
          | Threw _ _ => []
          | Returned _ os1 => [(ECoutEndl, mkWorld m2 os1 (registrars w))]
          end
      end
  end.
Proof.
unfold register, MediaKitLibsWindowsVideoPluginCApiRegisterWithRegistrar, invoke.
cbn [bind history perform event_of].
destruct (GetInstance (mediakit w)) as [self m1 | e m1];
  cbn [map_state map_thrown]; [ | reflexivity ].
cbn [with_mediakit mediakit cout registrars].
destruct (FindPackages self m1) as [found m2 | e m2];
  cbn [map_state map_thrown]; [ | reflexivity ].
cbn [with_mediakit with_cout mediakit cout registrars].
destruct (ostream.insert confirmation (cout w)) as [[] os1 | f os1];
  cbn [map_state map_thrown]; [ | reflexivity ].
cbn [with_mediakit with_cout mediakit cout registrars].
destruct (ostream.endl os1) as [[] os2 | f os2];
  cbn [map_state map_thrown]; reflexivity.
Qed.

Lemma normal_operation_inv w :
  normal_operation w = true ->
  exists self m1 found m2,
    GetInstance (mediakit w) = Returned self m1 /\
    FindPackages self m1 = Returned found m2 /\
    discovery (mediakit w) = Returned tt m2.
Proof.
unfold normal_operation, discovery.
destruct (GetInstance (mediakit w)) as [self m1 | e m1]; [ | discriminate ].
destruct (FindPackages self m1) as [found m2 | e m2] eqn:Hfind; [ | discriminate ].
intros _. exists self, m1, found, m2. repeat split; [ exact Hfind ].
Qed.

Lemma run_register_taken registrar w :
  normal_operation w = true ->
  ostream.takes_line confirmation (cout w) = true ->
  run (register registrar) w =
  (Returned tt (mkWorld (final_state (discovery (mediakit w)))
                        (ostream.with_line confirmation (cout w))
                        (registrars w)),
   full_trace).
Proof.
intros Hn Ht.
destruct (normal_operation_inv w Hn) as (self & m1 & found & m2 & Hg & Hf & Hd).
pose proof (line_taken confirmation (cout w) Ht) as Hline.
rewrite run_register, Hg, Hf, Hd.
destruct (ostream.insert confirmation (cout w)) as [[] os1 | f os1];
  [ | discriminate Hline ].
rewrite Hline. reflexivity.
Qed.

Lemma run_register_quiet registrar w :
  normal_operation w = true ->
  ostream.quiet (cout w) = true ->
  exists os,
    run (register registrar) w =
    (Returned tt (mkWorld (final_state (discovery (mediakit w))) os (registrars w)),
     full_trace).
Proof.
intros Hn Hq.
destruct (normal_operation_inv w Hn) as (self & m1 & found & m2 & Hg & Hf & Hd).
destruct (insert_quiet confirmation (cout w) Hq) as (os1 & Hi & Hq1).
destruct (endl_quiet os1 Hq1) as (os2 & He & _).
exists os2. now rewrite run_register, Hg, Hf, Hd, Hi, He.
Qed.

Lemma lines_gained_with_line os :
  lines_gained os (ostream.with_line confirmation os) = Some [confirmation].
Proof. unfold lines_gained. rewrite gained_with_line. reflexivity. Qed.

Lemma trace_register_cases registrar w :
  trace (register registrar) w = [EGetInstance] \/
  trace (register registrar) w = [EGetInstance; EFindPackages] \/
  trace (register registrar) w = [EGetInstance; EFindPackages; ECoutInsert confirmation] \/
  trace (register registrar) w = full_trace.
Proof.
unfold trace. rewrite run_register.
destruct (GetInstance (mediakit w)) as [self m1 | e m1]; [ | now left ].
destruct (FindPackages self m1) as [found m2 | e m2]; [ | now right; left ].
destruct (ostream.insert confirmation (cout w)) as [[] os1 | f os1];
  [ | now right; right; left ].
destruct (ostream.endl os1) as [[] os2 | f os2]; now right; right; right.
Qed.

(** *** The claims *)

(** C1, as amended.  Whatever the registrar handle, one call of the entry
    point in which the package locator operates normally and [std::cout]
    takes the confirmation line as it is (good, untied, no padding asked
    for, room in the buffer, a device that syncs) makes exactly one
    invocation of [FindPackages], which takes effect on the locator, and
    adds exactly one line to [std::cout], the confirmation string, with no
    unterminated text after it. *)
Theorem register_once_one_discovery_one_line registrar w :
  normal_operation w = true ->
  ostream.takes_line confirmation (cout w) = true ->
  invocations is_FindPackages (trace (register registrar) w) = 1 /\
  mediakit (final_state (result (register registrar) w)) =
    final_state (discovery (mediakit w)) /\
  lines_gained (cout w) (cout (final_state (result (register registrar) w))) =
    Some [confirmation].
Proof.
intros Hn Ht. unfold trace, result.
rewrite (run_register_taken registrar w Hn Ht). cbn [fst snd final_state mediakit cout].
split; [ reflexivity | ]. split; [ reflexivity | ].
apply lines_gained_with_line.
Qed.

(** C2, as amended.  In a call in which the package locator operates
    normally and [std::cout] takes the confirmation line as it is, the text
    [std::cout] gains is the literal
    ["package:media_kit_libs_windows_video registered."] followed by the
    line terminator and nothing else; it has all been delivered, with
    whatever was buffered before it, and nothing is left in the buffer; the
    only calls on the stream are that insertion and [std::endl]. *)
Theorem register_writes_confirmation_line registrar w :
  normal_operation w = true ->
  ostream.takes_line confirmation (cout w) = true ->
  gained (cout w) (cout (final_state (result (register registrar) w))) =
    Some ("package:media_kit_libs_windows_video registered."
            ++ String ostream.newline EmptyString) /\
  ostream.flushed (ostream.rdbuf (cout (final_state (result (register registrar) w)))) =
    ostream.contents (cout w)
      ++ "package:media_kit_libs_windows_video registered."
      ++ String ostream.newline EmptyString /\
  ostream.pending (ostream.rdbuf (cout (final_state (result (register registrar) w)))) =
    EmptyString /\
  filter is_cout (trace (register registrar) w) =
    [ECoutInsert "package:media_kit_libs_windows_video registered."; ECoutEndl].
Proof.
intros Hn Ht. unfold trace, result.
rewrite (run_register_taken registrar w Hn Ht). cbn [fst snd final_state cout].
split; [ apply (gained_with_line confirmation) | ].
split.
- unfold ostream.with_line, ostream.contents.
  cbn [ostream.rdbuf ostream.flushed]. now rewrite append_assoc.
- split; reflexivity.
Qed.

(** C3.  In every call the calls made are an initial part, never empty, of
    [GetInstance], [FindPackages], insertion of the confirmation string,
    [std::endl], in that order.  Whenever a call on [std::cout] is made,
    [FindPackages] has been invoked before it and has returned, and the
    locator is in the state [FindPackages] left; whenever a call into the
    locator is made, [std::cout] is still as it was on entry.  When the
    locator operates normally the insertion is attempted next; when
    moreover [std::cout] takes the line as it is, all four calls are made
    and the stream has gained the confirmation line. *)
Theorem register_effect_order registrar w :
  (exists n, 1 <= n /\ trace (register registrar) w = firstn n full_trace) /\
  (forall i ev wi,
      nth_error (history (register registrar) w) i = Some (ev, wi) ->
      (is_cout ev = true ->
       1 < i /\
       nth_error (trace (register registrar) w) 1 = Some EFindPackages /\
       normal_operation w = true /\
       mediakit wi = final_state (discovery (mediakit w))) /\
      (is_cout ev = false -> cout wi = cout w)) /\
  (normal_operation w = true ->
   nth_error (history (register registrar) w) 2 =
     Some (ECoutInsert confirmation,
           with_mediakit (final_state (discovery (mediakit w))) w)) /\
  (normal_operation w = true ->
   ostream.takes_line confirmation (cout w) = true ->
   trace (register registrar) w = full_trace /\
   gained (cout w) (cout (final_state (result (register registrar) w))) =
     Some confirmation_line).
Proof.
split; [ | split; [ | split ] ].
- destruct (trace_register_cases registrar w) as [Ht | [Ht | [Ht | Ht]]]; rewrite Ht.
  + exists 1. split; [ lia | reflexivity ].
  + exists 2. split; [ lia | reflexivity ].
  + exists 3. split; [ lia | reflexivity ].
  + exists 4. split; [ lia | reflexivity ].
- intros i ev wi. unfold trace, normal_operation, discovery.
  rewrite history_register, run_register.
  destruct (GetInstance (mediakit w)) as [self m1 | e m1];
    [ destruct (FindPackages self m1) as [found m2 | e m2];
      [ destruct (ostream.insert confirmation (cout w)) as [[] os1 | f os1];
        [ destruct (ostream.endl os1) as [[] os2 | f os2] | ] | ] | ];
    destruct i as [ | [ | [ | [ | i ] ] ] ]; cbn [nth_error snd];
    intros Hev; try discriminate Hev; try (destruct i; discriminate Hev);
    injection Hev as <- <-; cbn [is_cout final_state mediakit cout with_mediakit];
    split; intros Hc; try discriminate Hc; try reflexivity;
    (split; [ lia | split; [ reflexivity | split; reflexivity ] ]).
- intros Hn.
  destruct (normal_operation_inv w Hn) as (self & m1 & found & m2 & Hg & Hf & Hd).
  rewrite history_register, Hg, Hf, Hd. reflexivity.
- intros Hn Ht. unfold trace, result.
  rewrite (run_register_taken registrar w Hn Ht). cbn [fst snd final_state cout].
  split; [ reflexivity | apply (gained_with_line confirmation) ].
Qed.

(** C4.  The entry point is a function of one argument, the registrar
    handle, whose body returns [void].  For every handle and every process
    state the one value of [unit] is all that ever comes back; it comes
    back only if the locator operated normally, and it does come back
    whenever the locator operates normally and [std::cout] throws nothing
    (empty exception mask, no tie). *)
Theorem register_returns_nothing registrar w :
  (exists body : FlutterDesktopPluginRegistrarRef -> prog unit,
      body = MediaKitLibsWindowsVideoPluginCApiRegisterWithRegistrar /\
      result (body registrar) w = result (register registrar) w) /\
  (forall v, returned_value (result (register registrar) w) = Some v -> v = tt) /\
  (returned_value (result (register registrar) w) = Some tt ->
   normal_operation w = true) /\
  (normal_operation w = true ->
   ostream.quiet (cout w) = true ->
   returned_value (result (register registrar) w) = Some tt).
Proof.
split; [ | split; [ | split ] ].
- exists MediaKitLibsWindowsVideoPluginCApiRegisterWithRegistrar. split; reflexivity.
- intros [] _. reflexivity.
- unfold result, normal_operation, discovery. rewrite run_register.
  destruct (GetInstance (mediakit w)) as [self m1 | e m1]; [ | discriminate ].
  destruct (FindPackages self m1) as [found m2 | e m2]; [ reflexivity | discriminate ].
- intros Hn Hq. destruct (run_register_quiet registrar w Hn Hq) as (os & Hrun).
  unfold result. rewrite Hrun. reflexivity.
Qed.

(** C5, as amended.  The entry point handles nothing and raises nothing of
    its own: an exception of the locator leaves it as it is, and an
    exception of the locator is all that leaves it under that name; an
    exception thrown by [FindPackages] leaves right after that call, with
    the locator state [FindPackages] left.  When the locator operates
    normally and [std::cout] throws nothing (empty exception mask, no tie),
    the entry point throws nothing.  The one other exception that can leave
    is the [std::ios_base::failure] of line 11, only after the locator has
    returned and only on a stream that is not so. *)
Theorem register_surfaces_no_error_of_its_own registrar w :
  (forall e,
      thrown (discovery (mediakit w)) = Some e <->
      thrown (result (register registrar) w) = Some (from_locator e)) /\
  (forall self m1 e m2,
      GetInstance (mediakit w) = Returned self m1 ->
      FindPackages self m1 = Threw e m2 ->
      run (register registrar) w =
      (Threw (from_locator e) (with_mediakit m2 w), [EGetInstance; EFindPackages])) /\
  (normal_operation w = true ->
   ostream.quiet (cout w) = true ->
   thrown (result (register registrar) w) = None) /\
  (forall f,
      thrown (result (register registrar) w) = Some (from_stream f) ->
      normal_operation w = true /\ ostream.quiet (cout w) = false).
Proof.
split; [ | split; [ | split ] ].
- intros e. unfold result, discovery. rewrite run_register.
  destruct (GetInstance (mediakit w)) as [self m1 | e1 m1].
  + destruct (FindPackages self m1) as [found m2 | e2 m2].
    * destruct (ostream.insert confirmation (cout w)) as [[] os1 | f os1];
        [ destruct (ostream.endl os1) as [[] os2 | f os2] | ];
        cbn [fst thrown]; split; intros H; discriminate H.
    * cbn [fst thrown]. split; intros H; injection H as ->; reflexivity.
  + cbn [fst thrown]. split; intros H; injection H as ->; reflexivity.
- intros self m1 e m2 Hget Hfind. now rewrite run_register, Hget, Hfind.
- intros Hn Hq. destruct (run_register_quiet registrar w Hn Hq) as (os & Hrun).
  unfold result. rewrite Hrun. reflexivity.
- intros f Hf.
  assert (Hn : normal_operation w = true).
  { revert Hf. unfold result, normal_operation, discovery. rewrite run_register.
    destruct (GetInstance (mediakit w)) as [self m1 | e1 m1]; [ | discriminate ].
    destruct (FindPackages self m1) as [found m2 | e2 m2]; [ reflexivity | discriminate ]. }
  split; [ exact Hn | ].
  destruct (ostream.quiet (cout w)) eqn:Hq; [ | reflexivity ].
  destruct (run_register_quiet registrar w Hn Hq) as (os & Hrun).
  unfold result in Hf. rewrite Hrun in Hf. discriminate Hf.
Qed.

(** C6, as amended.  A call leaves the embedder's registrar objects as they
    were and behaves the same whatever they hold.  It changes the locator
    state by what the locator's own operations do to it.  It leaves
    [std::cout] as it was when the locator throws; when the locator operates
    normally and [std::cout] takes the line as it is, the stream differs
    from what it was in this only: it has gained the confirmation line, all
    it held has been delivered, its field width is 0 and the room of its
    buffer has shrunk by the length of the line. *)
Theorem register_frame registrar w :
  registrars (final_state (result (register registrar) w)) = registrars w /\
  mediakit (final_state (result (register registrar) w)) =
    final_state (discovery (mediakit w)) /\
  (normal_operation w = false ->
   cout (final_state (result (register registrar) w)) = cout w) /\
  (normal_operation w = true ->
   ostream.takes_line confirmation (cout w) = true ->
   cout (final_state (result (register registrar) w)) =
   {| ostream.rdstate := ostream.rdstate (cout w);
      ostream.exceptions := ostream.exceptions (cout w);
      ostream.width := 0;
      ostream.fill := ostream.fill (cout w);
      ostream.left := ostream.left (cout w);
      ostream.unitbuf := ostream.unitbuf (cout w);
      ostream.tie := ostream.tie (cout w);
      ostream.rdbuf :=
        {| ostream.flushed :=
             ostream.flushed (ostream.rdbuf (cout w))
               ++ ostream.pending (ostream.rdbuf (cout w))
               ++ "package:media_kit_libs_windows_video registered."
               ++ String ostream.newline EmptyString;
           ostream.pending := EmptyString;
           ostream.room :=
             option_map (fun r => r - 49) (ostream.room (ostream.rdbuf (cout w)));
           ostream.sync_ok := ostream.sync_ok (ostream.rdbuf (cout w)) |} |}) /\
  (forall h,
      run (register registrar) (with_registrars h w) =
      (map_state (with_registrars h) (result (register registrar) w),
       trace (register registrar) w)).
Proof.
split; [ | split; [ | split; [ | split ] ] ].
- unfold result. rewrite run_register.
  destruct (GetInstance (mediakit w)) as [self m1 | e m1]; [ | reflexivity ].
  destruct (FindPackages self m1) as [found m2 | e m2]; [ | reflexivity ].
  destruct (ostream.insert confirmation (cout w)) as [[] os1 | f os1];
    [ destruct (ostream.endl os1) as [[] os2 | f os2] | ]; reflexivity.
- unfold result, discovery. rewrite run_register.
  destruct (GetInstance (mediakit w)) as [self m1 | e m1]; [ | reflexivity ].
  destruct (FindPackages self m1) as [found m2 | e m2]; [ | reflexivity ].
  destruct (ostream.insert confirmation (cout w)) as [[] os1 | f os1];
    [ destruct (ostream.endl os1) as [[] os2 | f os2] | ]; reflexivity.
- unfold result, normal_operation, discovery. rewrite run_register.
  destruct (GetInstance (mediakit w)) as [self m1 | e m1]; [ | reflexivity ].
  destruct (FindPackages self m1) as [found m2 | e m2]; [ discriminate | reflexivity ].
- intros Hn Ht. unfold result.
  rewrite (run_register_taken registrar w Hn Ht). reflexivity.
- intros h. unfold result, trace. rewrite !run_register.
  cbn [mediakit cout registrars with_registrars].
  destruct (GetInstance (mediakit w)) as [self m1 | e m1]; [ | reflexivity ].
  destruct (FindPackages self m1) as [found m2 | e m2]; [ | reflexivity ].
  destruct (ostream.insert confirmation (cout w)) as [[] os1 | f os1];
    [ destruct (ostream.endl os1) as [[] os2 | f os2] | ]; reflexivity.
Qed.

(** C7.  The registrar parameter is not used: two handles give the same
    body, hence, in one process state, the same result and the same log of
    calls. *)
Theorem register_ignores_registrar registrar1 registrar2 w :
  register registrar1 = register registrar2 /\
  result (register registrar1) w = result (register registrar2) w /\
  trace (register registrar1) w = trace (register registrar2) w.
Proof.
assert (Hbody : register registrar1 = register registrar2) by reflexivity.
split; [ exact Hbody | ]. now rewrite Hbody.
Qed.


End PluginFacts.

Section MoreFacts.

Context {api : MediaKitApi} {lib : ostream.Library}.
Variable FlutterDesktopPluginRegistrar : Type.

Implicit Types (registrar : FlutterDesktopPluginRegistrarRef).
Implicit Types (w : world FlutterDesktopPluginRegistrar).

(** *** Sequencing *)

Lemma run_bind {A B} (p : prog A) (f : A -> prog B) w :
  run (bind p f) w =
  match run p w with
  | (Returned a w', t) => let (o, t') := run (f a) w' in (o, (t ++ t')%list)
  | (Threw e w', t) => (Threw e w', t)
  end.
Proof.
revert w. induction p as [ a | X c k IH ]; intros w; cbn [bind run].
- destruct (run (f a) w) as [o t']. reflexivity.
- destruct (perform c w) as [x w1 | e w1]; [ | reflexivity ].
  rewrite IH. destruct (run (k x) w1) as [[a w2 | e w2] t]; [ | reflexivity ].
  destruct (run (f a) w2) as [o t']. reflexivity.
Qed.

Lemma invocations_app f (t1 t2 : list event) :
  invocations f (t1 ++ t2) = invocations f t1 + invocations f t2.
Proof. unfold invocations. now rewrite filter_app, length_app. Qed.

Lemma split_lines_confirmation_line (s : string) :
  split_lines EmptyString (confirmation_line ++ s) =
  (confirmation :: fst (split_lines EmptyString s), snd (split_lines EmptyString s)).
Proof.
unfold confirmation_line, confirmation. cbn.
destruct (split_lines EmptyString s) as [ls rest]. reflexivity.
Qed.

Lemma registrations_shape (n : nat) :
  invocations is_FindPackages (concat (repeat full_trace n)) = n /\
  split_lines EmptyString (confirmation_lines n) = (repeat confirmation n, EmptyString).
Proof.
induction n as [ | n [IHi IHl] ]; [ split; reflexivity | ].
cbn [repeat concat confirmation_lines]. split.
- rewrite invocations_app, IHi. reflexivity.
- rewrite split_lines_confirmation_line, IHl. reflexivity.
Qed.

Lemma run_registrations (Inv : MediaKit -> Prop) :
  (forall m, Inv m -> exists m', discovery m = Returned tt m' /\ Inv m') ->
  forall rs w,
    Inv (mediakit w) ->
    ostream.takes (length rs * (String.length confirmation + 1)) (cout w) = true ->
    ostream.width (cout w) <= String.length confirmation ->
    exists w',
      run (registrations rs) w =
      (Returned tt w', concat (repeat full_trace (length rs))) /\
      registrars w' = registrars w /\
      ostream.contents (cout w') =
        ostream.contents (cout w) ++ confirmation_lines (length rs).
Proof.
intros Hstep rs. induction rs as [ | registrar rs IH ]; intros w Hw Htakes Hwidth.
- exists w. split; [ reflexivity | split; [ reflexivity | ] ].
  cbn [length confirmation_lines]. now rewrite append_nil_r.
- destruct (Hstep _ Hw) as (m' & Hd & Hm').
  assert (Hn : normal_operation w = true)
    by (unfold normal_operation; now rewrite Hd).
  cbn [length Nat.mul] in Htakes.
  assert (Hline : ostream.takes_line confirmation (cout w) = true).
  { unfold ostream.takes_line. rewrite (takes_more _ _ _ Htakes).
    apply Nat.leb_le. exact Hwidth. }
  cbn [registrations length repeat concat]. rewrite run_bind.
  rewrite (run_register_taken registrar w Hn Hline). rewrite Hd. cbn [final_state].
  destruct (IH (mkWorld m' (ostream.with_line confirmation (cout w)) (registrars w)))
    as (w' & Hrun & Hreg & Hcontents).
  + exact Hm'.
  + cbn [cout]. apply takes_with_line. exact Htakes.
  + cbn [cout ostream.with_line ostream.width]. lia.
  + exists w'. rewrite Hrun. split; [ reflexivity | ]. split; [ exact Hreg | ].
    rewrite Hcontents. cbn [cout confirmation_lines].
    rewrite contents_with_line. fold confirmation_line. now rewrite !append_assoc.
Qed.

(** *** Properties *)

(** X1.  When [GetInstance()] throws, the call ends there: the exception
    leaves the entry point as it is, [FindPackages] is not invoked, nothing
    is inserted into [std::cout], and the stream and the registrar objects
    are as before. *)
Theorem register_stops_when_GetInstance_throws registrar w e m1 :
  GetInstance (mediakit w) = Threw e m1 ->
  result (register registrar) w = Threw (from_locator e) (with_mediakit m1 w) /\
  invocations is_FindPackages (trace (register registrar) w) = 0 /\
  written (trace (register registrar) w) = EmptyString /\
  cout (final_state (result (register registrar) w)) = cout w.
Proof.
intros Hget. unfold result, trace. rewrite run_register, Hget.
cbn [fst snd final_state].
split; [ reflexivity | split; [ reflexivity | split; reflexivity ] ].
Qed.

(** X2.  The entry point cannot tell what [FindPackages()] returned: run
    against the locator with that value erased, it ends the same way, in the
    same state, after the same calls.  A status reported through the return
    value therefore never keeps the confirmation from being printed. *)
Theorem register_blind_to_find_result registrar w :
  run (api := forget_result api) (register registrar) (as_forgetful w) =
  (map_thrown forgetful_exception
     (map_state as_forgetful (result (register registrar) w)),
   trace (register registrar) w).
Proof.
unfold result, trace.
rewrite (run_register (api := forget_result api)), (run_register (api := api)).
cbn [forget_result GetInstance FindPackages as_forgetful mediakit cout registrars].
destruct (GetInstance (mediakit w)) as [self m1 | e m1]; [ | reflexivity ].
destruct (FindPackages self m1) as [found m2 | e m2]; [ | reflexivity ].
destruct (ostream.insert confirmation (cout w)) as [[] os1 | f os1];
  [ destruct (ostream.endl os1) as [[] os2 | f os2] | ]; reflexivity.
Qed.

(** X3.  Registration is not guarded against repetition.  From a locator
    state that keeps the locator operating normally, and with a
    [std::cout] that takes that many confirmation lines as they are, one
    call per handle of [rs] runs the whole body each time: as many
    invocations of [FindPackages] as there are handles, as many
    confirmation lines gained by [std::cout] and nothing else, all calls
    returning, the registrar objects untouched. *)
Theorem registrations_repeat_discovery (Inv : MediaKit -> Prop) rs w :
  (forall m, Inv m -> exists m', discovery m = Returned tt m' /\ Inv m') ->
  Inv (mediakit w) ->
  ostream.takes (length rs * (String.length confirmation + 1)) (cout w) = true ->
  ostream.width (cout w) <= String.length confirmation ->
  trace (registrations rs) w = concat (repeat full_trace (length rs)) /\
  invocations is_FindPackages (trace (registrations rs) w) = length rs /\
  gained (cout w) (cout (final_state (result (registrations rs) w))) =
    Some (confirmation_lines (length rs)) /\
  lines_gained (cout w) (cout (final_state (result (registrations rs) w))) =
    Some (repeat confirmation (length rs)) /\
  returned_value (result (registrations rs) w) = Some tt /\
  registrars (final_state (result (registrations rs) w)) = registrars w.
Proof.
intros Hstep Hw Htakes Hwidth.
destruct (run_registrations Inv Hstep rs w Hw Htakes Hwidth)
  as (w' & Hrun & Hreg & Hcontents).
destruct (registrations_shape (length rs)) as [Hi Hl].
assert (Hgained : gained (cout w) (cout w') = Some (confirmation_lines (length rs))).
{ unfold gained. rewrite Hcontents. apply strip_prefix_append. }
unfold trace, result. rewrite Hrun. cbn [fst snd returned_value final_state].
split; [ reflexivity | ]. split; [ exact Hi | ]. split; [ exact Hgained | ].
split; [ | split; [ reflexivity | exact Hreg ] ].
unfold lines_gained, partial_line, complete_lines. rewrite Hgained, Hl. reflexivity.
Qed.

(** X4.  On a [std::cout] that is not good when the call is made, the
    call adds no character to the stream, whatever the locator does and
    whatever the library does about the error bits, and the stream is not
    good afterwards either.  When the locator operates normally and the
    stream throws nothing, the call still makes all four calls and
    returns: the confirmation is lost without a sign. *)
Theorem register_adds_nothing_to_failed_stream registrar w :
  ostream.good (cout w) = false ->
  gained (cout w) (cout (final_state (result (register registrar) w))) =
    Some EmptyString /\
  ostream.good (cout (final_state (result (register registrar) w))) = false /\
  (normal_operation w = true ->
   ostream.quiet (cout w) = true ->
   trace (register registrar) w = full_trace /\
   returned_value (result (register registrar) w) = Some tt).
Proof.
intros Hg. split; [ | split ].
- pose proof (line_not_good confirmation (cout w) Hg) as [Hc _].
  unfold result, gained. rewrite run_register.
  destruct (GetInstance (mediakit w)) as [self m1 | e m1];
    [ | apply strip_prefix_same ].
  destruct (FindPackages self m1) as [found m2 | e m2];
    [ | apply strip_prefix_same ].
  destruct (ostream.insert confirmation (cout w)) as [[] os1 | f os1];
    [ destruct (ostream.endl os1) as [[] os2 | f os2] | ];
    cbn [fst final_state cout] in *; rewrite Hc; apply strip_prefix_same.
- pose proof (line_not_good confirmation (cout w) Hg) as [_ Hg'].
  unfold result. rewrite run_register.
  destruct (GetInstance (mediakit w)) as [self m1 | e m1]; [ | exact Hg ].
  destruct (FindPackages self m1) as [found m2 | e m2]; [ | exact Hg ].
  destruct (ostream.insert confirmation (cout w)) as [[] os1 | f os1];
    [ destruct (ostream.endl os1) as [[] os2 | f os2] | ];
    cbn [fst final_state cout] in *; exact Hg'.
- intros Hn Hq. destruct (run_register_quiet registrar w Hn Hq) as (os & Hrun).
  unfold trace, result. rewrite Hrun. split; reflexivity.
Qed.

(** X5.  Line 11 is a formatted insertion: when [std::cout] has a field
    width pending that is longer than the confirmation string, and is
    otherwise good, untied and able to take that many characters and a
    line terminator, the line the stream gains is the confirmation string
    padded to that width with the fill character, before the string, or
    after it when the adjustment is [left]; the width is 0 afterwards. *)
Theorem register_pads_to_pending_width registrar w :
  normal_operation w = true ->
  String.length confirmation < ostream.width (cout w) ->
  ostream.takes (ostream.width (cout w) + 1) (cout w) = true ->
  gained (cout w) (cout (final_state (result (register registrar) w))) =
    Some ((if ostream.left (cout w)
           then confirmation
                  ++ ostream.fill_characters
                       (ostream.width (cout w) - String.length confirmation)
                       (ostream.fill (cout w))
           else ostream.fill_characters
                  (ostream.width (cout w) - String.length confirmation)
                  (ostream.fill (cout w))
                  ++ confirmation)
            ++ String ostream.newline EmptyString) /\
  ostream.width (cout (final_state (result (register registrar) w))) = 0 /\
  returned_value (result (register registrar) w) = Some tt.
Proof.
intros Hn Hlt Ht.
destruct (normal_operation_inv w Hn) as (self & m1 & found & m2 & Hg & Hf & Hd).
rewrite <- (length_padded confirmation (cout w) Hlt) in Ht.
pose proof (padded_line_taken confirmation (cout w) Ht) as Hline.
assert (Hseq : ostream.padded confirmation (cout w) =
               if ostream.left (cout w)
               then confirmation
                      ++ ostream.fill_characters
                           (ostream.width (cout w) - String.length confirmation)
                           (ostream.fill (cout w))
               else ostream.fill_characters
                      (ostream.width (cout w) - String.length confirmation)
                      (ostream.fill (cout w))
                      ++ confirmation).
{ unfold ostream.padded. apply Nat.ltb_lt in Hlt as Hb. now rewrite Hb. }
unfold result. rewrite run_register, Hg, Hf.
destruct (ostream.insert confirmation (cout w)) as [[] os1 | f os1];
  [ | discriminate Hline ].
rewrite Hline. cbn [fst final_state cout returned_value].
rewrite gained_with_line, Hseq. split; [ reflexivity | split; reflexivity ].
Qed.

End MoreFacts.

(** ** The claims as first stated, refuted on the stub locators *)

(** C1 as stated, for every call: it fails when the locator throws (no line
    is gained), when [std::cout] is not good (no line is gained although
    the locator operated normally and [FindPackages] was invoked once) and
    when a field width is pending (the line gained is not the confirmation
    string). *)
Lemma register_once_one_discovery_one_line_counterexample :
  ~ (invocations is_FindPackages (trace (register 4096%N) Stub.empty) = 1 /\
     lines_gained (cout Stub.empty)
       (cout (final_state (result (register 4096%N) Stub.empty))) =
       Some [confirmation]) /\
  (normal_operation Stub.failed = true /\
   ~ (invocations is_FindPackages (trace (register 4096%N) Stub.failed) = 1 /\
      lines_gained (cout Stub.failed)
        (cout (final_state (result (register 4096%N) Stub.failed))) =
        Some [confirmation])) /\
  (normal_operation Stub.starred = true /\
   ~ (invocations is_FindPackages (trace (register 4096%N) Stub.starred) = 1 /\
      lines_gained (cout Stub.starred)
        (cout (final_state (result (register 4096%N) Stub.starred))) =
        Some [confirmation])).
Proof.
split; [ | split; (split; [ reflexivity | ]) ];
  intros [_ H]; vm_compute in H; discriminate H.
Qed.

(** C2 as stated: the text gained is not the literal and a line terminator
    when the locator throws (nothing is gained) nor when a field width is
    pending (the literal comes padded). *)
Lemma register_writes_confirmation_line_counterexample :
  gained (cout Stub.empty) (cout (final_state (result (register 4096%N) Stub.empty)))
    <> Some confirmation_line /\
  (normal_operation Stub.starred = true /\
   gained (cout Stub.starred)
     (cout (final_state (result (register 4096%N) Stub.starred)))
     <> Some confirmation_line).
Proof.
split; [ | split; [ reflexivity | ] ]; vm_compute; discriminate.
Qed.

(** C5 as stated: with the locator operating normally the entry point
    still throws, when [std::cout] has [badbit] in its exception mask and
    its buffer refuses the characters. *)
Lemma register_surfaces_no_error_of_its_own_counterexample :
  ~ (normal_operation Stub.strict_full = true ->
     thrown (result (register 4096%N) Stub.strict_full) = None).
Proof.
intros H. specialize (H eq_refl). vm_compute in H. discriminate H.
Qed.

(** C6 as stated: the line is not written when the locator throws, and
    more of [std::cout] than its text changes when a field width is
    pending, which the insertion resets. *)
Lemma register_frame_counterexample :
  ~ (gained (cout Stub.empty)
       (cout (final_state (result (register 4096%N) Stub.empty))) =
     Some confirmation_line) /\
  (normal_operation Stub.narrow = true /\
   ~ (ostream.width (cout (final_state (result (register 4096%N) Stub.narrow))) =
      ostream.width (cout Stub.narrow))).
Proof.
split; [ | split; [ reflexivity | ] ]; intros H; vm_compute in H; discriminate H.
Qed.


(** ** The properties on the stub locators *)

Lemma register_once_one_discovery_one_line_witness :
  normal_operation Stub.ready = true /\
  ostream.takes_line confirmation (cout Stub.ready) = true /\
  (invocations is_FindPackages (trace (register 4096%N) Stub.ready) = 1 /\
   mediakit (final_state (result (register 4096%N) Stub.ready)) =
     final_state (discovery (mediakit Stub.ready)) /\
   lines_gained (cout Stub.ready)
     (cout (final_state (result (register 4096%N) Stub.ready))) = Some [confirmation]).
Proof.
split; [ reflexivity | split; [ reflexivity | ] ].
apply (register_once_one_discovery_one_line 4096%N Stub.ready); reflexivity.
Defined.

Lemma register_writes_confirmation_line_witness :
  normal_operation Stub.ready = true /\
  ostream.takes_line confirmation (cout Stub.ready) = true /\
  ostream.flushed
    (ostream.rdbuf (cout (final_state (result (register 4096%N) Stub.ready)))) =
    ostream.contents (cout Stub.ready)
      ++ "package:media_kit_libs_windows_video registered."
      ++ String ostream.newline EmptyString.
Proof.
split; [ reflexivity | split; [ reflexivity | ] ].
apply (register_writes_confirmation_line 4096%N Stub.ready); reflexivity.
Defined.

Lemma register_surfaces_no_error_of_its_own_witness :
  normal_operation Stub.empty = false /\
  run (register 0%N) Stub.empty =
    (Threw (from_locator (api := Stub.api) "no package directory")
           (with_mediakit (api := Stub.api)
              {| Stub.constructed := true; Stub.search_path := []; Stub.loaded := [] |}
              Stub.empty),
     [EGetInstance; EFindPackages]).
Proof.
split; [ reflexivity | ].
apply (proj1 (proj2 (register_surfaces_no_error_of_its_own 0%N Stub.empty))
         tt
         {| Stub.constructed := true; Stub.search_path := []; Stub.loaded := [] |}).
- reflexivity.
- reflexivity.
Defined.

Lemma register_frame_witness :
  normal_operation Stub.narrow = true /\
  ostream.takes_line confirmation (cout Stub.narrow) = true /\
  ostream.flushed
    (ostream.rdbuf (cout (final_state (result (register 4096%N) Stub.narrow)))) =
    confirmation_line.
Proof.
split; [ reflexivity | split; [ reflexivity | ] ].
rewrite (proj1 (proj2 (proj2 (proj2 (register_frame 4096%N Stub.narrow))))
           eq_refl eq_refl).
reflexivity.
Defined.


Lemma register_stops_when_GetInstance_throws_witness :
  GetInstance (mediakit Probe.down) = Threw "locator unavailable" (mediakit Probe.down) /\
  (result (register 7%N) Probe.down =
     Threw (from_locator (api := Probe.api) "locator unavailable")
           (with_mediakit (mediakit Probe.down) Probe.down) /\
   invocations is_FindPackages (trace (register 7%N) Probe.down) = 0 /\
   written (trace (register 7%N) Probe.down) = EmptyString /\
   cout (final_state (result (register 7%N) Probe.down)) = cout Probe.down).
Proof.
split; [ reflexivity | ].
apply (register_stops_when_GetInstance_throws 7%N Probe.down).
reflexivity.
Defined.

Lemma registrations_repeat_discovery_witness :
  Probe.available (mediakit Probe.up) = true /\
  invocations is_FindPackages (trace (registrations [1%N; 2%N; 3%N]) Probe.up) = 3 /\
  lines_gained (cout Probe.up)
    (cout (final_state (result (registrations [1%N; 2%N; 3%N]) Probe.up))) =
    Some [confirmation; confirmation; confirmation].
Proof.
split; [ reflexivity | ].
assert (H : forall m, Probe.available m = true ->
                      exists m', discovery (api := Probe.api) m = Returned tt m' /\
                                 Probe.available m' = true).
{ intros [up n] Hup. cbn [Probe.available] in Hup. subst up.
  exists {| Probe.available := true; Probe.scans := S n |}.
  split; reflexivity. }
destruct (registrations_repeat_discovery (api := Probe.api)
            (fun m => Probe.available m = true) [1%N; 2%N; 3%N] Probe.up
            H eq_refl eq_refl (Nat.le_0_l _))
  as (_ & Hcalls & _ & Hlines & _).
split; [ exact Hcalls | exact Hlines ].
Defined.

Lemma register_adds_nothing_to_failed_stream_witness :
  ostream.good (cout Stub.failed) = false /\
  gained (cout Stub.failed)
    (cout (final_state (result (register 4096%N) Stub.failed))) = Some EmptyString.
Proof.
split; [ reflexivity | ].
apply (register_adds_nothing_to_failed_stream 4096%N Stub.failed). reflexivity.
Defined.

Lemma register_pads_to_pending_width_witness :
  normal_operation Stub.starred = true /\
  gained (cout Stub.starred)
    (cout (final_state (result (register 4096%N) Stub.starred))) =
    Some ("************package:media_kit_libs_windows_video registered."
            ++ String ostream.newline EmptyString).
Proof.
split; [ reflexivity | ].
apply (register_pads_to_pending_width 4096%N Stub.starred).
- reflexivity.
- apply Nat.leb_le. reflexivity.
- reflexivity.
Defined.
